(** * Upgrade scenarios of the platform checks framework

    A shallow embedding of [misc/python/materialize/checks/scenarios_upgrade.py]:
    the module-level constants, the three [Scenario] subclasses and their
    [actions] methods, followed by the properties of the action sequences
    they return. *)

From Stdlib Require Import List String Ascii ZArith Lia Bool Arith.
From Stdlib Require Import DecimalString Decimal Permutation.
Import ListNotations.
Open Scope string_scope.
Open Scope list_scope.

(** ** Python values used by the module *)

(** [str(n)] for a Python [int]. *)
Definition str_int (n : Z) : string := NilZero.string_of_int (Z.to_int n).

(** The double-quote character of the f-string literals. *)
Definition dq : string := String (ascii_of_nat 34) EmptyString.

(** ** Actions

    The constructors are the call sites of the module: every class that the
    module instantiates, with the keyword arguments it passes.  An argument
    that a call site leaves out is [None] ([tag=None] is passed explicitly and
    means the build under test; [environment_extra] is either passed or
    omitted). *)

Section Actions.

  (** The check classes held in [self.checks]; the module never looks inside. *)
Variable CheckClass : Type.

Inductive Action : Type :=
  | StartMz (tag : option string) (environment_extra : option (list string))
  | KillMz
  | StartComputed (tag : option string)
  | KillComputed
  | UseComputed
  | Initialize (checks : list CheckClass)
  | Manipulate (checks : list CheckClass) (phase : Z)
  | Sleep (interval : Z)
  | Validate (checks : list CheckClass).

  (** A [Scenario] instance: the attribute the methods read. *)
Record Scenario : Type := { checks : list CheckClass }.

End Actions.

Arguments StartMz {CheckClass} tag environment_extra.
Arguments KillMz {CheckClass}.
Arguments StartComputed {CheckClass} tag.
Arguments KillComputed {CheckClass}.
Arguments UseComputed {CheckClass}.
Arguments Initialize {CheckClass} checks.
Arguments Manipulate {CheckClass} checks phase.
Arguments Sleep {CheckClass} interval.
Arguments Validate {CheckClass} checks.
Arguments checks {CheckClass} _.

(** ** Module namespace

    The names bound by the module-level statements, as they stand once the
    module has been imported. *)

Record Globals : Type := {
  LAST_RELEASED_VERSION : string;
  size : Z;
  environment_extra : list string
}.

(** The two entries of [environment_extra], f-strings over [size]. *)
Definition storage_host_sizes (size : Z) : string :=
  "MZ_STORAGE_HOST_SIZES={" ++ dq ++ str_int size ++ dq ++ ":{" ++ dq ++ "workers" ++ dq
    ++ ":" ++ str_int size ++ "}}".

Definition cluster_replica_sizes (size : Z) : string :=
  "MZ_CLUSTER_REPLICA_SIZES={" ++ dq ++ "1" ++ dq ++ ":{" ++ dq ++ "workers" ++ dq ++ ":1,"
    ++ dq ++ "scale" ++ dq ++ ":1}," ++ dq ++ str_int size ++ "-" ++ str_int size ++ dq
    ++ ":{" ++ dq ++ "workers" ++ dq ++ ":" ++ str_int size ++ "," ++ dq ++ "scale" ++ dq
    ++ ":" ++ str_int size ++ "}}".

(** Execution of the module body.  [released_materialize_versions] is the
    result of [util.released_materialize_versions()] with every version
    rendered by [str], most recent first; [DEFAULT_SIZE] is
    [Materialized.Size.DEFAULT_SIZE].  Indexing an empty list raises
    [IndexError], and the import fails: [None]. *)
Definition module_init (released_materialize_versions : list string) (DEFAULT_SIZE : Z)
  : option Globals :=
  match released_materialize_versions with
  | [] => None
  | v0 :: _ =>
      let size := DEFAULT_SIZE in
      Some {| LAST_RELEASED_VERSION := "v" ++ v0;
              size := size;
              environment_extra := [storage_host_sizes size; cluster_replica_sizes size] |}
  end.

(** ** Method calls as state transformers over the module namespace *)

Definition Py (A : Type) : Type := Globals -> A * Globals.

Definition ret {A : Type} (a : A) : Py A := fun g => (a, g).

Definition bind {A B : Type} (m : Py A) (k : A -> Py B) : Py B :=
  fun g => let (a, g') := m g in k a g'.

(** Reading a module-level name. *)
Definition load {A : Type} (name : Globals -> A) : Py A := fun g => (name g, g).

Notation "x <- m ;; k" := (bind m (fun x => k))
  (at level 61, m at next level, right associativity).

Definition eval {A : Type} (m : Py A) (g : Globals) : A := fst (m g).
Definition exec {A : Type} (m : Py A) (g : Globals) : Globals := snd (m g).

(** ** The three scenarios *)

Section Scenarios.

Context {CheckClass : Type}.

  (** Upgrade the entire Mz instance from LAST_RELEASED_VERSION all at once. *)
Definition UpgradeEntireMz_actions (self : Scenario CheckClass) : Py (list (Action CheckClass)) :=
    last_released <- load LAST_RELEASED_VERSION ;;
    env_extra <- load environment_extra ;;
    ret [ StartMz (Some last_released) (Some env_extra);
          Initialize (checks self);
          Manipulate (checks self) 1;
          KillMz;
          StartMz None None;
          Manipulate (checks self) 2;
          Validate (checks self) ].

  (** Upgrade computed separately after upgrading environmentd+storaged *)
Definition UpgradeComputedLast_actions (self : Scenario CheckClass) : Py (list (Action CheckClass)) :=
    last_released <- load LAST_RELEASED_VERSION ;;
    env_extra <- load environment_extra ;;
    ret [ StartMz (Some last_released) (Some env_extra);
          StartComputed (Some last_released);
          UseComputed;
          Initialize (checks self);
          Manipulate (checks self) 1;
          KillMz;
          StartMz None None;
          Sleep 10;
          KillComputed;
          StartComputed None;
          Manipulate (checks self) 2;
          Validate (checks self) ].

  (** Upgrade computed separately before environmentd and storaged *)
Definition UpgradeComputedFirst_actions (self : Scenario CheckClass) : Py (list (Action CheckClass)) :=
    last_released <- load LAST_RELEASED_VERSION ;;
    env_extra <- load environment_extra ;;
    ret [ StartMz (Some last_released) (Some env_extra);
          StartComputed (Some last_released);
          UseComputed;
          Initialize (checks self);
          Manipulate (checks self) 1;
          KillComputed;
          StartComputed None;
          Sleep 10;
          KillMz;
          StartMz None None;
          Manipulate (checks self) 2;
          Validate (checks self) ].

  (** The subclasses of [Scenario] that the module defines; [actions] is the
      method each of them overrides. *)
Inductive ScenarioClass : Type :=
  | UpgradeEntireMz
  | UpgradeComputedLast
  | UpgradeComputedFirst.

Definition actions (cls : ScenarioClass) (self : Scenario CheckClass) : Py (list (Action CheckClass)) :=
    match cls with
    | UpgradeEntireMz => UpgradeEntireMz_actions self
    | UpgradeComputedLast => UpgradeComputedLast_actions self
    | UpgradeComputedFirst => UpgradeComputedFirst_actions self
    end.

End Scenarios.


(** ** Reading an action sequence

    The vocabulary in which the upgrade orderings are described: the two
    deployable components, the version a start action brings up, and the step
    each action stands for once check sets and environment overrides are left
    out. *)

(** [Mz] is the container of environmentd and storaged (the coordinator
    roles; the whole cluster when no separate computed is in use), [Computed]
    the separately deployed worker role. *)
Inductive Component : Type := Mz | Computed.

Inductive VersionTag : Type :=
| Released (version : string)
| UnderTest.

Definition version_of_tag (tag : option string) : VersionTag :=
  match tag with
  | Some v => Released v
  | None => UnderTest
  end.

Inductive Step : Type :=
| StartComponent (c : Component) (v : VersionTag)
| KillComponent (c : Component)
| UseComponent (c : Component)
| SleepFor (seconds : Z)
| InitializeChecks
| ManipulateChecks (phase : Z)
| ValidateChecks.

Definition Component_eqb (c d : Component) : bool :=
  match c, d with
  | Mz, Mz | Computed, Computed => true
  | _, _ => false
  end.

Section Reading.

Context {CheckClass : Type}.
Definition describe (a : Action CheckClass) : Step :=
  match a with
  | StartMz tag _ => StartComponent Mz (version_of_tag tag)
  | KillMz => KillComponent Mz
  | StartComputed tag => StartComponent Computed (version_of_tag tag)
  | KillComputed => KillComponent Computed
  | UseComputed => UseComponent Computed
  | Initialize _ => InitializeChecks
  | Manipulate _ phase => ManipulateChecks phase
  | Sleep interval => SleepFor interval
  | Validate _ => ValidateChecks
  end.

(** The component a start action brings up, with the [tag] it was given. *)
Definition started (a : Action CheckClass) : option (Component * option string) :=
  match a with
  | StartMz tag _ => Some (Mz, tag)
  | StartComputed tag => Some (Computed, tag)
  | _ => None
  end.

(** The component a kill action stops. *)
Definition killed (a : Action CheckClass) : option Component :=
  match a with
  | KillMz => Some Mz
  | KillComputed => Some Computed
  | _ => None
  end.

(** The [environment_extra] argument a constructor call was given. *)
Definition environment_extra_arg (a : Action CheckClass) : option (list string) :=
  match a with
  | StartMz _ env => env
  | _ => None
  end.

Definition is_start (c : Component) (a : Action CheckClass) : bool :=
  match started a with
  | Some (d, _) => Component_eqb c d
  | None => false
  end.

Definition is_kill (c : Component) (a : Action CheckClass) : bool :=
  match killed a with
  | Some d => Component_eqb c d
  | None => false
  end.

(** A start at the build under test ([tag=None]). *)
Definition is_upgrade_start (c : Component) (a : Action CheckClass) : bool :=
  match started a with
  | Some (d, None) => Component_eqb c d
  | _ => false
  end.

(** The version-transition actions of a component: its kill and its restart
    at the build under test. *)
Definition is_transition (c : Component) (a : Action CheckClass) : bool :=
  is_kill c a || is_upgrade_start c a.

Definition is_sleep (a : Action CheckClass) : bool :=
  match a with Sleep _ => true | _ => false end.

Definition is_use (a : Action CheckClass) : bool :=
  match a with UseComputed => true | _ => false end.

(** Actions that drive the workload: [Manipulate] and [Validate]. *)
Definition is_check_work (a : Action CheckClass) : bool :=
  match a with Manipulate _ _ | Validate _ => true | _ => false end.

(** The steps of a sequence, [UseComputed] (which starts and stops nothing)
    left out. *)
Definition steps (acts : list (Action CheckClass)) : list Step :=
  map describe (filter (fun a => negb (is_use a)) acts).

(** Indices of the actions satisfying [p], in increasing order. *)
Fixpoint positions_from (p : Action CheckClass -> bool) (i : nat) (acts : list (Action CheckClass)) : list nat :=
  match acts with
  | [] => []
  | a :: rest => if p a then i :: positions_from p (S i) rest else positions_from p (S i) rest
  end.

Definition positions (p : Action CheckClass -> bool) (acts : list (Action CheckClass)) : list nat :=
  positions_from p 0 acts.

End Reading.

(** ** The orderings as the specification words them *)

(** Whole-cluster-at-once: everything is started at the old version, killed
    and restarted at the new one, with the two manipulate phases around the
    restart. *)
Definition whole_cluster_at_once (old : string) : list Step :=
  [ StartComponent Mz (Released old);
    InitializeChecks;
    ManipulateChecks 1;
    KillComponent Mz;
    StartComponent Mz UnderTest;
    ManipulateChecks 2;
    ValidateChecks ].

(** The two rolling orderings: both roles start old, [first] is killed and
    restarted at the new version, a sleep of [window] seconds follows, then
    [second] is killed and restarted. *)
Definition rolling_upgrade (first second : Component) (old : string) (window : Z)
  : list Step :=
  [ StartComponent Mz (Released old);
    StartComponent Computed (Released old);
    InitializeChecks;
    ManipulateChecks 1;
    KillComponent first;
    StartComponent first UnderTest;
    SleepFor window;
    KillComponent second;
    StartComponent second UnderTest;
    ManipulateChecks 2;
    ValidateChecks ].

Definition worker_upgraded_last := rolling_upgrade Mz Computed.
Definition worker_upgraded_first := rolling_upgrade Computed Mz.

(** ** Cluster state along a sequence

    Which components a prefix of the sequence leaves running, and at which
    version each was last started.  Only lifecycle actions change it. *)

Record Status : Type := {
  running : bool;
  version : option VersionTag
}.

Record Cluster : Type := {
  mz : Status;
  computed : Status
}.

Definition never_started : Status := {| running := false; version := None |}.

Definition initial_cluster : Cluster := {| mz := never_started; computed := never_started |}.

Definition status_of (cl : Cluster) (c : Component) : Status :=
  match c with
  | Mz => mz cl
  | Computed => computed cl
  end.

Definition set_status (cl : Cluster) (c : Component) (s : Status) : Cluster :=
  match c with
  | Mz => {| mz := s; computed := computed cl |}
  | Computed => {| mz := mz cl; computed := s |}
  end.

Definition lifecycle {CheckClass : Type} (cl : Cluster) (a : Action CheckClass) : Cluster :=
  match started a, killed a with
  | Some (c, tag), _ =>
      set_status cl c {| running := true; version := Some (version_of_tag tag) |}
  | None, Some c =>
      set_status cl c {| running := false; version := version (status_of cl c) |}
  | None, None => cl
  end.

(** The cluster as the action at index [i] finds it. *)
Definition cluster_before {CheckClass : Type} (acts : list (Action CheckClass)) (i : nat)
  : Cluster :=
  fold_left lifecycle (firstn i acts) initial_cluster.

(** The worker was last started at the build under test while the
    coordinators were last started at a release. *)
Definition worker_newer (cl : Cluster) : bool :=
  match version (computed cl), version (mz cl) with
  | Some UnderTest, Some (Released _) => true
  | _, _ => false
  end.

(** ** The scenario executor

    Modelled from the spec: the executor that drives a sequence lives in the
    [Scenario] base class ([materialize.checks.scenarios]), which this module
    only imports.  The definitions below follow the specification's state
    machine: [Pending -> Running i -> Completed | Aborted reason i]; from
    [Running i] the action at index [i] is applied, success advances to
    [Running (i+1)] (or [Completed] when [i+1] is the length), failure moves to
    [Aborted] and stops.  An empty sequence completes at once. *)

Inductive ExecState (Reason : Type) : Type :=
| Pending
| Running (i : nat)
| Completed
| Aborted (reason : Reason) (i : nat).

Arguments Pending {Reason}.
Arguments Running {Reason} i.
Arguments Completed {Reason}.
Arguments Aborted {Reason} reason i.

Section Executor.

Context {CheckClass : Type}.

(** The executor's handle on the cluster and the check data, and the reason
    a failing action reports. *)
Variable ExecutorContext : Type.
Variable Reason : Type.

(** An action's [apply] contract: it may change the context, and either
    succeeds ([None]) or fails with a reason. *)
Variable apply : Action CheckClass -> ExecutorContext -> ExecutorContext * option Reason.

Record Config : Type := {
  state : ExecState Reason;
  context : ExecutorContext;
  applied : list nat   (* indices of the actions applied so far, oldest first *)
}.

Definition start_config (ctx : ExecutorContext) : Config :=
  {| state := Pending; context := ctx; applied := [] |}.

Definition executor_step (acts : list (Action CheckClass)) (cfg : Config) : Config :=
  match state cfg with
  | Pending =>
      {| state := match acts with [] => Completed | _ :: _ => Running 0 end;
         context := context cfg;
         applied := applied cfg |}
  | Running i =>
      match nth_error acts i with
      | Some a =>
          let (ctx', result) := apply a (context cfg) in
          {| state := match result with
                      | None => if Nat.eqb (S i) (List.length acts) then Completed else Running (S i)
                      | Some reason => Aborted reason i
                      end;
             context := ctx';
             applied := applied cfg ++ [i] |}
      | None => {| state := Completed; context := context cfg; applied := applied cfg |}
      end
  | Completed | Aborted _ _ => cfg
  end.

Fixpoint executor_steps (n : nat) (acts : list (Action CheckClass)) (cfg : Config) : Config :=
  match n with
  | O => cfg
  | S n' => executor_steps n' acts (executor_step acts cfg)
  end.

(** A whole run: one step to leave [Pending], then at most one per action. *)
Definition run (acts : list (Action CheckClass)) (ctx : ExecutorContext) : Config :=
  executor_steps (S (List.length acts)) acts (start_config ctx).

Definition is_terminal (s : ExecState Reason) : bool :=
  match s with
  | Completed | Aborted _ _ => true
  | Pending | Running _ => false
  end.

(** What the configuration looks like after [n] steps from [Pending]: the
    actions applied are an initial segment of the indices, and a running
    executor has taken exactly one step more than its index. *)
Definition reached (acts : list (Action CheckClass)) (n : nat) (cfg : Config) : Prop :=
  match state cfg with
  | Pending => n = 0 /\ applied cfg = []
  | Running i => n = S i /\ i < List.length acts /\ applied cfg = seq 0 i
  | Completed => applied cfg = seq 0 (List.length acts)
  | Aborted _ i => i < List.length acts /\ applied cfg = seq 0 (S i)
  end.

End Executor.

Arguments state {ExecutorContext Reason} _.
Arguments context {ExecutorContext Reason} _.
Arguments applied {ExecutorContext Reason} _.
Arguments is_terminal {Reason} s.
Arguments start_config {ExecutorContext Reason} ctx.
Arguments executor_step {CheckClass ExecutorContext Reason} apply acts cfg.
Arguments executor_steps {CheckClass ExecutorContext Reason} apply n acts cfg.
Arguments run {CheckClass ExecutorContext Reason} apply acts ctx.
Arguments reached {CheckClass ExecutorContext Reason} acts n cfg.

(** ** The coexistence window as a predicate *)

(** The sequence [acts] has one sleep, after every version-transition action
    of [first] and before every version-transition action of [second], both
    of which occur. *)
Definition sleep_separates {CheckClass : Type} (first second : Component)
           (acts : list (Action CheckClass)) : Prop :=
  exists s,
    positions is_sleep acts = [s]
    /\ positions (is_transition first) acts <> []
    /\ positions (is_transition second) acts <> []
    /\ (forall i a, nth_error acts i = Some a -> is_transition first a = true -> i < s)
    /\ (forall i a, nth_error acts i = Some a -> is_transition second a = true -> s < i).

(** ** A concrete module state and scenario

    The namespace after importing the module with [v0.26.0] as the most
    recent release and a default size of 4, a scenario over two named checks,
    and an action backend in which killing the worker fails. *)

Definition sample_globals : Globals :=
  {| LAST_RELEASED_VERSION := "v0.26.0";
     size := 4;
     environment_extra := [storage_host_sizes 4; cluster_replica_sizes 4] |}.

Definition sample_scenario : Scenario string :=
  {| checks := ["CreateTable"; "Sink"] |}.

Definition sample_apply (a : Action string) (applied_so_far : nat) : nat * option string :=
  match a with
  | KillComputed => (applied_so_far, Some "computed could not be stopped")
  | _ => (S applied_so_far, None)
  end.

(** ** Further readings of actions and of the override strings *)

(** The check set a check-driving action was constructed with. *)
Definition check_set {CheckClass : Type} (a : Action CheckClass)
  : option (list CheckClass) :=
  match a with
  | Initialize cs | Manipulate cs _ | Validate cs => Some cs
  | _ => None
  end.

(** Actions that call into the checks: [Initialize], [Manipulate], [Validate]. *)
Definition is_check_driver {CheckClass : Type} (a : Action CheckClass) : bool :=
  match check_set a with
  | Some _ => true
  | None => false
  end.

(** Actions that exist only because the worker is deployed on its own: its
    start, selection and kill, and the sleep between the two upgrades. *)
Definition is_worker_only {CheckClass : Type} (a : Action CheckClass) : bool :=
  match a with
  | StartComputed _ | KillComputed | UseComputed | Sleep _ => true
  | _ => false
  end.

(** Nesting depth of curly braces after reading [s] from depth [depth];
    [None] when a closing brace has no opening one. *)
Fixpoint brace_depth (s : string) (depth : nat) : option nat :=
  match s with
  | EmptyString => Some depth
  | String c rest =>
      if Ascii.eqb c "{" then brace_depth rest (S depth)
      else if Ascii.eqb c "}" then
             match depth with
             | O => None
             | S d => brace_depth rest d
             end
      else brace_depth rest depth
  end.

Definition balanced (s : string) : bool :=
  match brace_depth s 0 with
  | Some O => true
  | _ => false
  end.

(** Characters that are neither a brace nor the [=] that ends a variable
    name. *)
Definition plain_char (c : ascii) : bool :=
  negb (Ascii.eqb c "{" || Ascii.eqb c "}" || Ascii.eqb c "=").

Fixpoint all_plain (s : string) : bool :=
  match s with
  | EmptyString => true
  | String c rest => plain_char c && all_plain rest
  end.

(** ** Calls of [actions] with the constructors as they run

    The classes a scenario instantiates are defined in
    [materialize.checks.actions] and [materialize.checks.mzcompose_actions];
    what their constructors do is not part of this module.  Here a constructor
    call is a parameter: it may read and change the interpreter state, and it
    returns the object it built.  An [Action] value names the class and the
    arguments of one call. *)

Section Calls.

Context {CheckClass : Type}.

(** The state a caller can observe, in which this module's namespace and the
    scenario instance are found. *)
Variable World : Type.
Variable globals_of : World -> Globals.
Variable self_of : World -> Scenario CheckClass.

(** The objects the constructors return. *)
Variable Obj : Type.
Variable construct : Action CheckClass -> World -> Obj * World.

(** The elements of the list display from index [i] on, [n] of them, left to
    right: the arguments of an element are read from the state as it stands
    when its turn comes, then its constructor runs. *)
Fixpoint construct_from (cls : ScenarioClass) (i n : nat) (w : World) : list Obj * World :=
  match n with
  | O => ([], w)
  | S n' =>
      match nth_error (eval (actions cls (self_of w)) (globals_of w)) i with
      | Some a =>
          let (obj, w1) := construct a w in
          let (rest, w2) := construct_from cls (S i) n' w1 in
          (obj :: rest, w2)
      | None => ([], w)
      end
  end.

(** A call of [actions] on the instance in the state. *)
Definition call_actions (cls : ScenarioClass) (w : World) : list Obj * World :=
  construct_from cls 0 (List.length (eval (actions cls (self_of w)) (globals_of w))) w.

End Calls.

Arguments construct_from {CheckClass World} globals_of self_of {Obj} construct cls i n w.
Arguments call_actions {CheckClass World} globals_of self_of {Obj} construct cls w.

(** Two constructor behaviours over a state made of the namespace, the
    instance and a counter: one only builds the value, the other also counts
    the constructor calls. *)
Definition CountingWorld : Type := Globals * Scenario string * nat.

Definition counting_globals (w : CountingWorld) : Globals := fst (fst w).
Definition counting_self (w : CountingWorld) : Scenario string := snd (fst w).


Definition counting_construct (a : Action string) (w : CountingWorld)
  : Action string * CountingWorld := (a, (fst w, S (snd w))).

Definition sample_world : CountingWorld := (sample_globals, sample_scenario, 0).

(** Case analysis on an index into a sequence of known length: [H] states
    [nth_error acts i = Some a] for a literal [acts]. *)
Ltac index_cases i H :=
  cbn in H;
  repeat (match type of H with
          | nth_error (_ :: _) i = _ => destruct i as [|i]; cbn in H
          end);
  try (destruct i; discriminate H).

(** * Properties *)

(** ** Indices and positions *)

Lemma positions_from_spec {CheckClass : Type} (p : Action CheckClass -> bool) :
  forall (acts : list (Action CheckClass)) (base i : nat),
    In i (positions_from p base acts) <->
    exists a, base <= i /\ nth_error acts (i - base) = Some a /\ p a = true.
Proof.
  induction acts as [|x rest IH]; intros base i; simpl.
  - split; [tauto|]. intros (a & _ & H & _). destruct (i - base); discriminate.
  - assert (Hrest : In i (positions_from p (S base) rest) <->
                    exists a, base <= i /\ nth_error (x :: rest) (i - base) = Some a
                              /\ p a = true /\ i <> base).
    { rewrite IH. split.
      - intros (a & Hle & Hn & Hp). exists a.
        replace (i - base) with (S (i - S base)) by lia. simpl.
        repeat split; auto; lia.
      - intros (a & Hle & Hn & Hp & Hne). exists a.
        replace (i - base) with (S (i - S base)) in Hn by lia. simpl in Hn.
        repeat split; auto; lia. }
    destruct (p x) eqn:Hpx; simpl; rewrite Hrest.
    + split.
      * intros [<- | (a & Hle & Hn & Hp & _)].
        -- exists x. rewrite Nat.sub_diag. auto.
        -- exists a. auto.
      * intros (a & Hle & Hn & Hp).
        destruct (Nat.eq_dec base i) as [->|Hne]; [now left|].
        right. exists a. repeat split; auto.
    + split.
      * intros (a & Hle & Hn & Hp & _). exists a. auto.
      * intros (a & Hle & Hn & Hp). exists a. repeat split; auto.
        intros ->. rewrite Nat.sub_diag in Hn. simpl in Hn. congruence.
Qed.

(** [positions p acts] lists exactly the indices whose action satisfies [p]. *)
Lemma positions_spec {CheckClass : Type} (p : Action CheckClass -> bool)
      (acts : list (Action CheckClass)) (i : nat) :
  In i (positions p acts) <-> exists a, nth_error acts i = Some a /\ p a = true.
Proof.
  unfold positions. rewrite positions_from_spec. rewrite Nat.sub_0_r.
  split; intros (a & H); exists a; intuition lia.
Qed.

(** ** The three orderings *)

(** C3. Whole-cluster-at-once: the actions of [UpgradeEntireMz] are, step for
    step, start at the old version, initialize, manipulate phase 1, kill,
    restart at the new version, manipulate phase 2, validate; no action is a
    sleep, and none starts or kills a separate worker, so the single
    container is the whole cluster. *)
Theorem UpgradeEntireMz_whole_cluster_at_once
        (CheckClass : Type) (g : Globals) (self : Scenario CheckClass) :
  map describe (eval (actions UpgradeEntireMz self) g)
    = whole_cluster_at_once (LAST_RELEASED_VERSION g)
  /\ positions is_sleep (eval (actions UpgradeEntireMz self) g) = []
  /\ positions (is_start Computed) (eval (actions UpgradeEntireMz self) g) = []
  /\ positions (is_kill Computed) (eval (actions UpgradeEntireMz self) g) = [].
Proof. repeat split. Qed.

(** C1. Worker-upgraded-last: leaving [UseComputed] aside, the actions of
    [UpgradeComputedLast] are: both roles started at the last released
    version, initialize, manipulate phase 1, coordinators killed and
    restarted at the build under test, a sleep, worker killed and restarted at
    the build under test, manipulate phase 2, validate; the only action left
    aside sits at index 2, and [Validate] is the last action. *)
Theorem UpgradeComputedLast_worker_upgraded_last
        (CheckClass : Type) (g : Globals) (self : Scenario CheckClass) :
  steps (eval (actions UpgradeComputedLast self) g)
    = worker_upgraded_last (LAST_RELEASED_VERSION g) 10
  /\ positions is_use (eval (actions UpgradeComputedLast self) g) = [2]
  /\ positions (is_transition Mz) (eval (actions UpgradeComputedLast self) g) = [5; 6]
  /\ positions (is_transition Computed) (eval (actions UpgradeComputedLast self) g) = [8; 9]
  /\ last (eval (actions UpgradeComputedLast self) g) UseComputed = Validate (checks self).
Proof. repeat split. Qed.

(** C2. Worker-upgraded-first: the sequence of [UpgradeComputedLast] with
    the worker's kill and restart moved in front of the coordinators'.  It has
    twelve actions; the first five and the last two are those of
    [UpgradeComputedLast], and between them come that scenario's worker block
    (its indices 8 and 9), its sleep (index 7) and its coordinator block
    (indices 5 and 6), in this order.  So the worker's kill is at index 5, its
    start at the build under test at index 6, [Sleep 10] at index 7, the
    coordinators' kill at index 8 and their restart at index 9, each occurring
    once; [UseComputed] occurs once, at index 2; manipulate phase 2 and
    validate follow at indices 10 and 11, and [Validate] is the last
    action. *)
Theorem UpgradeComputedFirst_worker_upgraded_first
        (CheckClass : Type) (g : Globals) (self : Scenario CheckClass) :
  steps (eval (actions UpgradeComputedFirst self) g)
    = worker_upgraded_first (LAST_RELEASED_VERSION g) 10
  /\ positions (is_kill Computed) (eval (actions UpgradeComputedFirst self) g) = [5]
  /\ positions (is_upgrade_start Computed) (eval (actions UpgradeComputedFirst self) g) = [6]
  /\ positions is_sleep (eval (actions UpgradeComputedFirst self) g) = [7]
  /\ positions (is_kill Mz) (eval (actions UpgradeComputedFirst self) g) = [8]
  /\ positions (is_upgrade_start Mz) (eval (actions UpgradeComputedFirst self) g) = [9]
  /\ nth_error (eval (actions UpgradeComputedFirst self) g) 5 = Some KillComputed
  /\ nth_error (eval (actions UpgradeComputedFirst self) g) 6 = Some (StartComputed None)
  /\ nth_error (eval (actions UpgradeComputedFirst self) g) 7 = Some (Sleep 10)
  /\ nth_error (eval (actions UpgradeComputedFirst self) g) 8 = Some KillMz
  /\ nth_error (eval (actions UpgradeComputedFirst self) g) 10
       = Some (Manipulate (checks self) 2)
  /\ nth_error (eval (actions UpgradeComputedFirst self) g) 11
       = Some (Validate (checks self))
  /\ nth_error (eval (actions UpgradeComputedFirst self) g) 9 = Some (StartMz None None)
  /\ List.length (eval (actions UpgradeComputedFirst self) g) = 12
  /\ positions is_use (eval (actions UpgradeComputedFirst self) g) = [2]
  /\ positions (is_transition Computed) (eval (actions UpgradeComputedFirst self) g) = [5; 6]
  /\ positions (is_transition Mz) (eval (actions UpgradeComputedFirst self) g) = [8; 9]
  /\ last (eval (actions UpgradeComputedFirst self) g) UseComputed = Validate (checks self)
  /\ eval (actions UpgradeComputedFirst self) g
     = firstn 5 (eval (actions UpgradeComputedLast self) g)
         ++ skipn 8 (firstn 10 (eval (actions UpgradeComputedLast self) g))
         ++ skipn 7 (firstn 8 (eval (actions UpgradeComputedLast self) g))
         ++ skipn 5 (firstn 7 (eval (actions UpgradeComputedLast self) g))
         ++ skipn 10 (eval (actions UpgradeComputedLast self) g).
Proof. repeat split. Qed.

(** ** Lifecycle invariants *)

(** C4. No restart before stop.  In each of the three scenarios and for each
    component: a start action finds its component stopped; between two starts
    of one component there is a kill of that component; and every kill of a
    component precedes that component's start at the build under test. *)
Theorem start_only_after_kill
        (CheckClass : Type) (cls : ScenarioClass) (g : Globals)
        (self : Scenario CheckClass) :
  (forall i a c,
      nth_error (eval (actions cls self) g) i = Some a ->
      is_start c a = true ->
      running (status_of (cluster_before (eval (actions cls self) g) i) c) = false)
  /\ (forall i j a b c,
      i < j ->
      nth_error (eval (actions cls self) g) i = Some a ->
      nth_error (eval (actions cls self) g) j = Some b ->
      is_start c a = true ->
      is_start c b = true ->
      exists k x, i < k < j
                  /\ nth_error (eval (actions cls self) g) k = Some x
                  /\ is_kill c x = true)
  /\ (forall k j x b c,
      nth_error (eval (actions cls self) g) k = Some x ->
      is_kill c x = true ->
      nth_error (eval (actions cls self) g) j = Some b ->
      is_upgrade_start c b = true ->
      k < j).
Proof.
  split; [|split].
  - intros i a c Hi Hs.
    destruct cls; index_cases i Hi; inversion Hi; subst a;
      destruct c; try discriminate Hs; reflexivity.
  - intros i j a b c Hlt Hi Hj Ha Hb.
    destruct cls; index_cases i Hi; inversion Hi; subst a;
      destruct c; try discriminate Ha;
      index_cases j Hj; inversion Hj; subst b; try discriminate Hb; try lia.
    + exists 3, KillMz. cbn. repeat split; lia.
    + exists 5, KillMz. cbn. repeat split; lia.
    + exists 8, KillComputed. cbn. repeat split; lia.
    + exists 8, KillMz. cbn. repeat split; lia.
    + exists 5, KillComputed. cbn. repeat split; lia.
  - intros k j x b c Hk Hx Hj Hb.
    destruct cls; index_cases k Hk; inversion Hk; subst x;
      destruct c; try discriminate Hx;
      index_cases j Hj; inversion Hj; subst b; try discriminate Hb; lia.
Qed.

(** ** The coexistence window *)

(** C5. [UpgradeComputedLast] and [UpgradeComputedFirst] each contain exactly
    one [Sleep], strictly after the kill and restart of the role upgraded
    first and strictly before the kill and restart of the role upgraded
    second. *)
Theorem one_sleep_between_the_upgrades
        (CheckClass : Type) (g : Globals) (self : Scenario CheckClass) :
  sleep_separates Mz Computed (eval (actions UpgradeComputedLast self) g)
  /\ sleep_separates Computed Mz (eval (actions UpgradeComputedFirst self) g).
Proof.
  split; exists 7; (split; [reflexivity|]);
    (split; [discriminate|]); (split; [discriminate|]);
    split; intros i a Hi Ha; index_cases i Hi; inversion Hi; subst a;
      try discriminate Ha; lia.
Qed.

(** C6. The worker is never newer than the coordinators while checks run.
    In every scenario no [Manipulate] or [Validate] finds the worker at the
    build under test with the coordinators still at a release; whenever an
    action finds the cluster so, it is the sleep or the coordinators' own kill
    or restart.  In [UpgradeComputedFirst] the worker's restart at the build
    under test (index 6) and the coordinators' kill (index 8) have only
    [Sleep 10] between them. *)
Theorem worker_newer_only_in_window
        (CheckClass : Type) (cls : ScenarioClass) (g : Globals)
        (self : Scenario CheckClass) :
  (forall i a,
      nth_error (eval (actions cls self) g) i = Some a ->
      is_check_work a = true ->
      worker_newer (cluster_before (eval (actions cls self) g) i) = false)
  /\ (forall i a,
      nth_error (eval (actions cls self) g) i = Some a ->
      worker_newer (cluster_before (eval (actions cls self) g) i) = true ->
      is_sleep a || is_transition Mz a = true)
  /\ positions (is_upgrade_start Computed) (eval (actions UpgradeComputedFirst self) g) = [6]
  /\ positions (is_kill Mz) (eval (actions UpgradeComputedFirst self) g) = [8]
  /\ (forall p q i a,
      nth_error (eval (actions UpgradeComputedFirst self) g) p = Some (StartComputed None) ->
      nth_error (eval (actions UpgradeComputedFirst self) g) q = Some KillMz ->
      p < i < q ->
      nth_error (eval (actions UpgradeComputedFirst self) g) i = Some a ->
      a = Sleep 10).
Proof.
  split; [|split; [|split; [|split]]]; try reflexivity.
  - intros i a Hi Ha.
    destruct cls; index_cases i Hi; inversion Hi; subst a;
      try discriminate Ha; reflexivity.
  - intros i a Hi Hw.
    destruct cls; index_cases i Hi; inversion Hi; subst a;
      try discriminate Hw; reflexivity.
  - intros p q i a Hp Hq Hlt Hi.
    index_cases p Hp; try discriminate Hp.
    index_cases q Hq; try discriminate Hq.
    index_cases i Hi; try lia. congruence.
Qed.

(** ** Version tags and environment overrides *)

(** C9. Start tags only move from released to under test.  In every
    scenario the first start of a component carries [LAST_RELEASED_VERSION]
    and every later start of it carries [None]: once a component has been
    started, each further start of it is at the build under test, never at a
    release. *)
Theorem start_tags_monotone
        (CheckClass : Type) (cls : ScenarioClass) (g : Globals)
        (self : Scenario CheckClass) :
  (forall i a c tag,
      nth_error (eval (actions cls self) g) i = Some a ->
      started a = Some (c, tag) ->
      tag = if existsb (is_start c) (firstn i (eval (actions cls self) g))
            then None
            else Some (LAST_RELEASED_VERSION g))
  /\ (forall i j a b c tag,
      i < j ->
      nth_error (eval (actions cls self) g) i = Some a ->
      nth_error (eval (actions cls self) g) j = Some b ->
      is_start c a = true ->
      started b = Some (c, tag) ->
      tag = None).
Proof.
  split.
  - intros i a c tag Hi Hs.
    destruct cls; index_cases i Hi; inversion Hi; subst a;
      try discriminate Hs; cbn in Hs; inversion Hs; subst; reflexivity.
  - intros i j a b c tag Hlt Hi Hj Ha Hb.
    destruct cls; index_cases i Hi; inversion Hi; subst a;
      destruct c; try discriminate Ha;
      index_cases j Hj; inversion Hj; subst b;
      try discriminate Hb; try lia; cbn in Hb; congruence.
Qed.

(** C10. The environment overrides go to the first coordinator start only.
    In every scenario the action at index 0 is [StartMz] at
    [LAST_RELEASED_VERSION] with the module's [environment_extra]; no later
    action is given an [environment_extra], in particular no start at the
    build under test and no start of the worker. *)
Theorem environment_extra_only_at_first_start
        (CheckClass : Type) (cls : ScenarioClass) (g : Globals)
        (self : Scenario CheckClass) :
  nth_error (eval (actions cls self) g) 0
    = Some (StartMz (Some (LAST_RELEASED_VERSION g)) (Some (environment_extra g)))
  /\ (forall i a,
      nth_error (eval (actions cls self) g) i = Some a ->
      0 < i ->
      environment_extra_arg a = None)
  /\ (forall i a c,
      nth_error (eval (actions cls self) g) i = Some a ->
      is_upgrade_start c a = true ->
      environment_extra_arg a = None)
  /\ (forall i a,
      nth_error (eval (actions cls self) g) i = Some a ->
      is_start Computed a = true ->
      environment_extra_arg a = None).
Proof.
  split; [destruct cls; reflexivity|].
  split; [|split].
  - intros i a Hi Hpos.
    destruct cls; index_cases i Hi; inversion Hi; subst a; try lia; reflexivity.
  - intros i a c Hi Ha.
    destruct cls; index_cases i Hi; inversion Hi; subst a;
      try discriminate Ha; reflexivity.
  - intros i a Hi Ha.
    destruct cls; index_cases i Hi; inversion Hi; subst a;
      try discriminate Ha; reflexivity.
Qed.

(** ** Calling [actions] *)




(** ** The executor's failure policy *)

Section ExecutorFacts.

Context {CheckClass ExecutorContext Reason : Type}.
Variable apply : Action CheckClass -> ExecutorContext -> ExecutorContext * option Reason.
Variable acts : list (Action CheckClass).

Lemma executor_steps_add (m n : nat) (cfg : Config ExecutorContext Reason) :
  executor_steps apply (m + n) acts cfg
  = executor_steps apply n acts (executor_steps apply m acts cfg).
Proof.
  revert cfg. induction m as [|m IH]; intros cfg; simpl; [reflexivity|apply IH].
Qed.

Lemma executor_step_terminal (cfg : Config ExecutorContext Reason) :
  is_terminal (state cfg) = true -> executor_step apply acts cfg = cfg.
Proof.
  unfold executor_step. destruct (state cfg); simpl; intros H;
    try discriminate H; reflexivity.
Qed.

Lemma executor_steps_terminal (n : nat) (cfg : Config ExecutorContext Reason) :
  is_terminal (state cfg) = true -> executor_steps apply n acts cfg = cfg.
Proof.
  intros H. induction n as [|n IH]; simpl; [reflexivity|].
  rewrite executor_step_terminal by exact H. exact IH.
Qed.

Lemma executor_step_reached (n : nat) (cfg : Config ExecutorContext Reason) :
  reached acts n cfg -> reached acts (S n) (executor_step apply acts cfg).
Proof.
  unfold reached, executor_step.
  destruct (state cfg) as [|i| |r i] eqn:Hst.
  - intros [-> Happ]. destruct acts as [|a rest]; simpl.
    + exact Happ.
    + repeat split; [lia|exact Happ].
  - intros (-> & Hlt & Happ).
    destruct (nth_error acts i) as [a|] eqn:Hnth.
    + destruct (apply a (context cfg)) as [ctx' [reason|]]; cbn [state applied].
      * split; [exact Hlt|]. rewrite Happ, seq_S. reflexivity.
      * destruct (Nat.eqb (S i) (List.length acts)) eqn:He.
        -- apply Nat.eqb_eq in He. rewrite <- He, Happ, seq_S. reflexivity.
        -- apply Nat.eqb_neq in He. repeat split; [lia|].
           rewrite Happ, seq_S. reflexivity.
    + apply nth_error_None in Hnth. lia.
  - rewrite Hst. tauto.
  - rewrite Hst. tauto.
Qed.

Lemma executor_steps_reached (n : nat) (ctx : ExecutorContext) :
  reached acts n (executor_steps apply n acts (start_config ctx)).
Proof.
  induction n as [|n IH].
  - simpl. split; reflexivity.
  - replace (S n) with (n + 1) at 2 by lia. rewrite executor_steps_add.
    simpl. apply executor_step_reached. exact IH.
Qed.

(** Every run ends: after the steps [run] takes the executor has completed or
    aborted. *)
Lemma run_terminal (ctx : ExecutorContext) :
  is_terminal (state (run apply acts ctx)) = true.
Proof.
  unfold run.
  pose proof (executor_steps_reached (S (List.length acts)) ctx) as H.
  unfold reached in H.
  destruct (state (executor_steps apply (S (List.length acts)) acts (start_config ctx)));
    simpl; try reflexivity.
  - destruct H as [H _]. discriminate H.
  - destruct H as (H & Hlt & _). lia.
Qed.

End ExecutorFacts.

(** C7. Fail-fast.  If a run reaches the action at index [k] and applying it
    fails, the run ends [Aborted] at index [k] with the reported reason; the
    actions applied are those at indices [0..k] and none beyond [k], and the
    context is the one the failing action left. *)
Theorem failure_aborts_at_failing_index
        (CheckClass ExecutorContext Reason : Type)
        (apply : Action CheckClass -> ExecutorContext -> ExecutorContext * option Reason)
        (acts : list (Action CheckClass)) (ctx0 : ExecutorContext)
        (n k : nat) (a : Action CheckClass) (ctx' : ExecutorContext) (reason : Reason) :
  state (executor_steps apply n acts (start_config ctx0)) = Running k ->
  nth_error acts k = Some a ->
  apply a (context (executor_steps apply n acts (start_config ctx0))) = (ctx', Some reason) ->
  state (run apply acts ctx0) = Aborted reason k
  /\ applied (run apply acts ctx0) = seq 0 (S k)
  /\ (forall j, In j (applied (run apply acts ctx0)) -> j <= k)
  /\ context (run apply acts ctx0) = ctx'.
Proof.
  intros Hstate Hnth Happly.
  pose proof (executor_steps_reached apply acts n ctx0) as Hreach.
  unfold reached in Hreach. rewrite Hstate in Hreach.
  destruct Hreach as (Hn & Hlt & Happlied).
  set (cfg := executor_steps apply n acts (start_config ctx0)) in *.
  assert (Hstep : executor_step apply acts cfg
                  = {| state := Aborted reason k; context := ctx';
                       applied := seq 0 (S k) |}).
  { unfold executor_step. rewrite Hstate, Hnth, Happly, Happlied, seq_S. reflexivity. }
  assert (Hrun : run apply acts ctx0
                 = {| state := Aborted reason k; context := ctx';
                      applied := seq 0 (S k) |}).
  { unfold run.
    replace (S (List.length acts)) with (n + S (List.length acts - S k)) by lia.
    rewrite executor_steps_add. fold cfg. simpl. rewrite Hstep.
    apply executor_steps_terminal. reflexivity. }
  rewrite Hrun. cbn [state applied context].
  repeat split.
  intros j Hj. apply in_seq in Hj. lia.
Qed.

(** ** The properties on the concrete module state *)

Example module_init_sample :
  module_init ["0.26.0"; "0.25.2"] 4 = Some sample_globals.
Proof. reflexivity. Qed.

Example module_init_no_release : forall n, module_init [] n = None.
Proof. reflexivity. Qed.

Lemma start_only_after_kill_witness :
  running (status_of
             (cluster_before (eval (actions UpgradeComputedLast sample_scenario) sample_globals) 6)
             Mz) = false
  /\ (exists k x, 0 < k < 6
                  /\ nth_error (eval (actions UpgradeComputedLast sample_scenario) sample_globals) k
                     = Some x
                  /\ is_kill Mz x = true)
  /\ 5 < 6.
Proof.
  pose proof (start_only_after_kill string UpgradeComputedLast sample_globals sample_scenario)
    as (Hstopped & Hbetween & Horder).
  split; [|split].
  - apply (Hstopped 6 (StartMz None None) Mz); reflexivity.
  - apply (Hbetween 0 6 (StartMz (Some "v0.26.0") (Some (environment_extra sample_globals)))
                    (StartMz None None) Mz); [lia|reflexivity..].
  - apply (Horder 5 6 KillMz (StartMz None None) Mz); reflexivity.
Defined.

Lemma one_sleep_between_the_upgrades_witness :
  sleep_separates Computed Mz (eval (actions UpgradeComputedFirst sample_scenario) sample_globals).
Proof.
  exact (proj2 (one_sleep_between_the_upgrades string sample_globals sample_scenario)).
Defined.

Lemma worker_newer_only_in_window_witness :
  worker_newer (cluster_before (eval (actions UpgradeComputedFirst sample_scenario) sample_globals) 10)
  = false
  /\ is_sleep (@Sleep string 10) || is_transition Mz (@Sleep string 10) = true
  /\ @Sleep string 10 = Sleep 10.
Proof.
  pose proof (worker_newer_only_in_window string UpgradeComputedFirst sample_globals sample_scenario)
    as (Hwork & Hwindow & _ & _ & Hbetween).
  split; [|split].
  - apply (Hwork 10 (Manipulate (checks sample_scenario) 2)); reflexivity.
  - apply (Hwindow 7 (Sleep 10)); reflexivity.
  - apply (Hbetween 6 8 7 (Sleep 10)); [reflexivity|reflexivity|lia|reflexivity].
Defined.

Lemma start_tags_monotone_witness :
  Some "v0.26.0" = Some (LAST_RELEASED_VERSION sample_globals)
  /\ @None string = None.
Proof.
  pose proof (start_tags_monotone string UpgradeComputedLast sample_globals sample_scenario)
    as (Hfirst & Hlater).
  split.
  - apply (Hfirst 1 (StartComputed (Some "v0.26.0")) Computed (Some "v0.26.0")); reflexivity.
  - apply (Hlater 0 6 (StartMz (Some "v0.26.0") (Some (environment_extra sample_globals)))
                  (StartMz None None) Mz None); [lia|reflexivity..].
Defined.

Lemma environment_extra_only_at_first_start_witness :
  environment_extra_arg (@StartMz string None None) = None
  /\ environment_extra_arg (@StartComputed string (Some "v0.26.0")) = None.
Proof.
  pose proof (environment_extra_only_at_first_start
                string UpgradeComputedLast sample_globals sample_scenario)
    as (_ & Hlater & Hupgrade & Hworker).
  split.
  - apply (Hupgrade 6 (StartMz None None) Mz); reflexivity.
  - apply (Hworker 1 (StartComputed (Some "v0.26.0"))); reflexivity.
Defined.

Lemma failure_aborts_at_failing_index_witness :
  state (run sample_apply (eval (actions UpgradeComputedFirst sample_scenario) sample_globals) 0)
  = Aborted "computed could not be stopped" 5
  /\ applied (run sample_apply
                  (eval (actions UpgradeComputedFirst sample_scenario) sample_globals) 0)
     = [0; 1; 2; 3; 4; 5]
  /\ (forall j,
         In j (applied (run sample_apply
                            (eval (actions UpgradeComputedFirst sample_scenario) sample_globals)
                            0)) ->
         j <= 5)
  /\ context (run sample_apply
                  (eval (actions UpgradeComputedFirst sample_scenario) sample_globals) 0)
     = 5.
Proof.
  apply (failure_aborts_at_failing_index
           string nat string sample_apply
           (eval (actions UpgradeComputedFirst sample_scenario) sample_globals)
           0 6 5 KillComputed 5 "computed could not be stopped");
    reflexivity.
Defined.

(** * Further properties of the module *)

(** ** Importing the module *)

(** X1. The import fails exactly when no release is known, and otherwise only
    the most recent release matters: older entries of the list change nothing
    in the namespace. *)
Theorem module_init_needs_one_release (versions : list string) (DEFAULT_SIZE : Z) :
  (module_init versions DEFAULT_SIZE = None <-> versions = [])
  /\ (forall v older, versions = v :: older ->
        module_init versions DEFAULT_SIZE = module_init [v] DEFAULT_SIZE).
Proof.
  split.
  - destruct versions as [|v older]; simpl; split; intros H;
      try reflexivity; discriminate H.
  - intros v older ->. reflexivity.
Qed.

Lemma module_init_needs_one_release_witness :
  module_init ["0.26.0"; "0.25.2"; "0.25.1"] 4 = module_init ["0.26.0"] 4.
Proof.
  apply (proj2 (module_init_needs_one_release ["0.26.0"; "0.25.2"; "0.25.1"] 4)
               "0.26.0" ["0.25.2"; "0.25.1"]).
  reflexivity.
Defined.

(** X2. After a successful import, whatever scenario runs: every start that
    names a release names the most recent one, prefixed with [v], and every
    start given environment overrides is given the two size overrides built
    from the default size. *)
Theorem scenarios_start_from_latest_release
        (CheckClass : Type) (versions : list string) (DEFAULT_SIZE : Z) (g : Globals)
        (cls : ScenarioClass) (self : Scenario CheckClass) (a : Action CheckClass) :
  module_init versions DEFAULT_SIZE = Some g ->
  In a (eval (actions cls self) g) ->
  (forall c tag, started a = Some (c, Some tag) ->
                 exists v older, versions = v :: older /\ tag = ("v" ++ v)%string)
  /\ (forall env, environment_extra_arg a = Some env ->
                  env = [storage_host_sizes DEFAULT_SIZE; cluster_replica_sizes DEFAULT_SIZE]).
Proof.
  intros Hinit Hin.
  destruct versions as [|v older]; [discriminate Hinit|].
  simpl in Hinit. injection Hinit as <-.
  split.
  - intros c tag Hs. exists v, older. split; [reflexivity|].
    destruct cls; cbn in Hin;
      repeat (destruct Hin as [<- | Hin]; [cbn in Hs |- *; congruence|]);
      contradiction.
  - intros env He.
    destruct cls; cbn in Hin;
      repeat (destruct Hin as [<- | Hin];
              [cbn [environment_extra_arg] in He;
               first [discriminate He | injection He as <-; reflexivity]|]);
      contradiction.
Qed.

Lemma scenarios_start_from_latest_release_witness :
  (exists v older, ["0.26.0"; "0.25.2"] = v :: older /\ "v0.26.0" = ("v" ++ v)%string)
  /\ environment_extra sample_globals = [storage_host_sizes 4; cluster_replica_sizes 4].
Proof.
  pose proof (scenarios_start_from_latest_release
                string ["0.26.0"; "0.25.2"] 4 sample_globals UpgradeComputedFirst
                sample_scenario
                (StartMz (Some "v0.26.0") (Some (environment_extra sample_globals)))
                eq_refl (or_introl eq_refl)) as (Htag & Henv).
  split.
  - apply (Htag Mz "v0.26.0"). reflexivity.
  - apply (Henv (environment_extra sample_globals)). reflexivity.
Defined.

(** ** The environment overrides as strings *)

Lemma brace_depth_app (s t : string) :
  forall depth,
    brace_depth (s ++ t) depth
    = match brace_depth s depth with
      | Some d => brace_depth t d
      | None => None
      end.
Proof.
  induction s as [|c s IH]; intros depth; simpl; [reflexivity|].
  destruct (Ascii.eqb c "{"); [apply IH|].
  destruct (Ascii.eqb c "}"); [|apply IH].
  destruct depth; [reflexivity|apply IH].
Qed.

Lemma brace_depth_plain (s : string) :
  all_plain s = true -> forall depth, brace_depth s depth = Some depth.
Proof.
  induction s as [|c s IH]; simpl; intros H depth; [reflexivity|].
  apply andb_true_iff in H. destruct H as [Hc Hs].
  unfold plain_char in Hc. apply negb_true_iff in Hc.
  apply orb_false_iff in Hc. destruct Hc as [Hc _].
  apply orb_false_iff in Hc. destruct Hc as [Hopen Hclose].
  rewrite Hopen, Hclose. apply IH. exact Hs.
Qed.

Lemma string_of_uint_plain (d : uint) :
  all_plain (NilEmpty.string_of_uint d) = true.
Proof. induction d; simpl; try reflexivity; exact IHd. Qed.

(** [str] of an integer consists of digits and a sign only. *)
Lemma str_int_plain (n : Z) : all_plain (str_int n) = true.
Proof.
  unfold str_int, NilZero.string_of_int, NilZero.string_of_uint.
  destruct (Z.to_int n) as [d|d]; destruct d; simpl; try reflexivity;
    apply string_of_uint_plain.
Qed.

(** X3. Whatever the default size, each override reads [NAME=VALUE] with the
    variable name the older release expects, and the braces of [VALUE] are
    properly nested: the doubled braces of the f-strings open and close in
    pairs around the formatted size. *)
Theorem overrides_are_well_nested (DEFAULT_SIZE : Z) :
  exists storage_value replica_value,
    storage_host_sizes DEFAULT_SIZE = ("MZ_STORAGE_HOST_SIZES=" ++ storage_value)%string
    /\ balanced storage_value = true
    /\ cluster_replica_sizes DEFAULT_SIZE
       = ("MZ_CLUSTER_REPLICA_SIZES=" ++ replica_value)%string
    /\ balanced replica_value = true.
Proof.
  unfold storage_host_sizes, cluster_replica_sizes.
  pose proof (str_int_plain DEFAULT_SIZE) as Hplain.
  set (digits := str_int DEFAULT_SIZE) in *. clearbody digits.
  do 2 eexists.
  split; [reflexivity|]. split.
  - unfold balanced.
    repeat (simpl; rewrite ?brace_depth_app, ?(brace_depth_plain digits Hplain)).
    reflexivity.
  - split; [reflexivity|]. unfold balanced.
    repeat (simpl; rewrite ?brace_depth_app, ?(brace_depth_plain digits Hplain)).
    reflexivity.
Qed.

(** ** Check sets *)

(** X4. Every [Initialize], [Manipulate] and [Validate] of a scenario is
    built over the scenario's own [checks], and the checks have no influence
    on the order of steps: two instances of one class differ in their check
    sets only. *)
Theorem check_actions_use_own_checks
        (CheckClass : Type) (cls : ScenarioClass) (g : Globals)
        (self : Scenario CheckClass) :
  (forall a cs,
      In a (eval (actions cls self) g) -> check_set a = Some cs -> cs = checks self)
  /\ (forall other : Scenario CheckClass,
        map describe (eval (actions cls other) g)
        = map describe (eval (actions cls self) g)).
Proof.
  split.
  - intros a cs Hin Hcs.
    destruct cls; cbn in Hin;
      repeat (destruct Hin as [<- | Hin];
              [cbn in Hcs; first [discriminate Hcs | injection Hcs as <-; reflexivity]|]);
      contradiction.
  - intros other. destruct cls; reflexivity.
Qed.

Lemma check_actions_use_own_checks_witness :
  ["CreateTable"; "Sink"] = checks sample_scenario.
Proof.
  apply (proj1 (check_actions_use_own_checks string UpgradeEntireMz sample_globals
                                             sample_scenario)
               (Manipulate (checks sample_scenario) 2)).
  - cbn. do 5 right. left. reflexivity.
  - reflexivity.
Defined.

(** ** Lifecycle of the components *)

(** X5. [UseComputed] appears once, at index 2, in the two scenarios that
    deploy the worker on its own and never in [UpgradeEntireMz]; it comes
    right after the worker's first start, finds the worker running, and
    precedes every action that drives the checks. *)
Theorem UseComputed_follows_worker_start
        (CheckClass : Type) (cls : ScenarioClass) (g : Globals)
        (self : Scenario CheckClass) :
  positions is_use (eval (actions cls self) g)
    = match cls with
      | UpgradeEntireMz => []
      | UpgradeComputedLast | UpgradeComputedFirst => [2]
      end
  /\ (forall i,
        nth_error (eval (actions cls self) g) i = Some UseComputed ->
        nth_error (eval (actions cls self) g) (pred i)
          = Some (StartComputed (Some (LAST_RELEASED_VERSION g)))
        /\ running (computed (cluster_before (eval (actions cls self) g) i)) = true
        /\ (forall j b,
              j < i ->
              nth_error (eval (actions cls self) g) j = Some b ->
              is_check_driver b = false)).
Proof.
  split; [destruct cls; reflexivity|].
  intros i Hi.
  destruct cls; index_cases i Hi; try discriminate Hi;
    (split; [reflexivity|]); (split; [reflexivity|]);
    intros j b Hlt Hj; index_cases j Hj; inversion Hj; subst b;
      try lia; reflexivity.
Qed.

Lemma UseComputed_follows_worker_start_witness :
  nth_error (eval (actions UpgradeComputedFirst sample_scenario) sample_globals) 1
    = Some (StartComputed (Some "v0.26.0"))
  /\ is_check_driver (@StartMz string (Some "v0.26.0")
                               (Some (environment_extra sample_globals))) = false.
Proof.
  pose proof (proj2 (UseComputed_follows_worker_start string UpgradeComputedFirst
                                                      sample_globals sample_scenario)
                    2 eq_refl) as (Hprev & _ & Hbefore).
  split.
  - exact Hprev.
  - apply (Hbefore 0); [lia|reflexivity].
Defined.

(** X6. A kill always targets a component that is running the last released
    version: nothing is killed twice, before it was started, or after its
    upgrade. *)
Theorem kill_targets_running_release
        (CheckClass : Type) (cls : ScenarioClass) (g : Globals)
        (self : Scenario CheckClass) (i : nat) (a : Action CheckClass) (c : Component) :
  nth_error (eval (actions cls self) g) i = Some a ->
  is_kill c a = true ->
  status_of (cluster_before (eval (actions cls self) g) i) c
  = {| running := true; version := Some (Released (LAST_RELEASED_VERSION g)) |}.
Proof.
  intros Hi Hk.
  destruct cls; index_cases i Hi; inversion Hi; subst a;
    destruct c; try discriminate Hk; reflexivity.
Qed.

Lemma kill_targets_running_release_witness :
  status_of (cluster_before (eval (actions UpgradeComputedLast sample_scenario) sample_globals) 8)
            Computed
  = {| running := true; version := Some (Released "v0.26.0") |}.
Proof.
  apply (kill_targets_running_release string UpgradeComputedLast sample_globals
                                      sample_scenario 8 KillComputed Computed);
    reflexivity.
Defined.

(** X7. Every kill is followed at once by the start of the same component
    at the build under test, without environment overrides: no check, sleep
    or other action runs while a component is down. *)
Theorem kill_is_followed_by_restart
        (CheckClass : Type) (cls : ScenarioClass) (g : Globals)
        (self : Scenario CheckClass) (i : nat) (a : Action CheckClass) (c : Component) :
  nth_error (eval (actions cls self) g) i = Some a ->
  is_kill c a = true ->
  exists b,
    nth_error (eval (actions cls self) g) (S i) = Some b
    /\ is_upgrade_start c b = true
    /\ environment_extra_arg b = None.
Proof.
  intros Hi Hk.
  destruct cls; index_cases i Hi; inversion Hi; subst a;
    destruct c; try discriminate Hk;
    eexists; (split; [reflexivity|]); split; reflexivity.
Qed.

Lemma kill_is_followed_by_restart_witness :
  exists b,
    nth_error (eval (actions UpgradeComputedFirst sample_scenario) sample_globals) 9 = Some b
    /\ is_upgrade_start Mz b = true
    /\ environment_extra_arg b = None.
Proof.
  apply (kill_is_followed_by_restart string UpgradeComputedFirst sample_globals
                                     sample_scenario 8 KillMz Mz);
    reflexivity.
Defined.

(** X8. The checks only ever meet a uniform cluster.  When [Initialize],
    [Manipulate] or [Validate] is reached, the coordinators are running and
    the worker is either running too or was never started on its own; every
    running component is at the last released version for [Initialize] and
    phase 1, and at the build under test for phase 2 and [Validate]. *)
Theorem checks_meet_uniform_cluster
        (CheckClass : Type) (cls : ScenarioClass) (g : Globals)
        (self : Scenario CheckClass) (i : nat) (a : Action CheckClass) :
  nth_error (eval (actions cls self) g) i = Some a ->
  is_check_driver a = true ->
  status_of (cluster_before (eval (actions cls self) g) i) Mz
  = {| running := true;
       version := Some match a with
                       | Initialize _ => Released (LAST_RELEASED_VERSION g)
                       | Manipulate _ phase =>
                           if (phase =? 1)%Z then Released (LAST_RELEASED_VERSION g)
                           else UnderTest
                       | _ => UnderTest
                       end |}
  /\ (status_of (cluster_before (eval (actions cls self) g) i) Computed = never_started
      \/ status_of (cluster_before (eval (actions cls self) g) i) Computed
         = status_of (cluster_before (eval (actions cls self) g) i) Mz).
Proof.
  intros Hi Hd.
  destruct cls; index_cases i Hi; inversion Hi; subst a;
    try discriminate Hd;
    (split; [reflexivity|]); first [left; reflexivity | right; reflexivity].
Qed.

Lemma checks_meet_uniform_cluster_witness :
  status_of (cluster_before (eval (actions UpgradeComputedLast sample_scenario) sample_globals)
                            11) Mz
  = {| running := true; version := Some UnderTest |}
  /\ (status_of (cluster_before (eval (actions UpgradeComputedLast sample_scenario)
                                      sample_globals) 11) Computed
      = never_started
      \/ status_of (cluster_before (eval (actions UpgradeComputedLast sample_scenario)
                                         sample_globals) 11) Computed
         = status_of (cluster_before (eval (actions UpgradeComputedLast sample_scenario)
                                           sample_globals) 11) Mz).
Proof.
  apply (checks_meet_uniform_cluster string UpgradeComputedLast sample_globals
                                     sample_scenario 11
                                     (Validate (checks sample_scenario)));
    reflexivity.
Defined.

(** ** How the three scenarios relate *)

(** X9. The two rolling scenarios perform the same actions in a different
    order: one sequence is a rearrangement of the other, and they agree on
    the first five and on the last two actions. *)
Theorem rolling_scenarios_rearrange_each_other
        (CheckClass : Type) (g : Globals) (self : Scenario CheckClass) :
  Permutation (eval (actions UpgradeComputedLast self) g)
              (eval (actions UpgradeComputedFirst self) g)
  /\ firstn 5 (eval (actions UpgradeComputedLast self) g)
     = firstn 5 (eval (actions UpgradeComputedFirst self) g)
  /\ skipn 10 (eval (actions UpgradeComputedLast self) g)
     = skipn 10 (eval (actions UpgradeComputedFirst self) g).
Proof.
  split; [|split; reflexivity].
  cbn. do 5 apply perm_skip.
  change (Permutation
            ([KillMz; StartMz None None]
               ++ Sleep 10 :: [KillComputed; StartComputed None]
               ++ [Manipulate (checks self) 2; Validate (checks self)])
            ([KillComputed; StartComputed None]
               ++ Sleep 10 :: [KillMz; StartMz None None]
               ++ [Manipulate (checks self) 2; Validate (checks self)])).
  rewrite <- !Permutation_middle. do 3 apply perm_skip.
  rewrite !app_nil_r. apply Permutation_app_comm.
Qed.

(** X10. Each rolling scenario is the whole-cluster scenario with the
    worker's own actions and the sleep added: dropping [StartComputed],
    [UseComputed], [KillComputed] and [Sleep] from any scenario leaves the
    sequence of [UpgradeEntireMz]. *)
Theorem scenarios_extend_whole_cluster_upgrade
        (CheckClass : Type) (cls : ScenarioClass) (g : Globals)
        (self : Scenario CheckClass) :
  filter (fun a => negb (is_worker_only a)) (eval (actions cls self) g)
  = eval (actions UpgradeEntireMz self) g.
Proof. destruct cls; reflexivity. Qed.


(** A constructor with an effect shows in the state after the call: with
    the counting constructors, a call of [UpgradeComputedFirst.actions]
    leaves the counter at 12. *)
Example counting_constructors_are_seen :
  snd (call_actions counting_globals counting_self counting_construct
                    UpgradeComputedFirst sample_world)
  = (sample_globals, sample_scenario, 12).
Proof. reflexivity. Qed.
